(** * Ontology service: load OWL files, reason once, answer ancestor queries

    A shallow embedding of [ontology_service.py].  The service keeps one
    process-wide dictionary [loaded_ontologies]; it is filled at startup by
    [load_ontologies_from_directory], handed once to the external reasoner
    by [lifespan], and afterwards only read by the HTTP routes.

    The code delegates to three collaborators, which are modelled by their
    observable contract and kept apart from the service's own functions:
    - Python's [str] and [os] / [os.path] helpers (modules [Str], [OsPath],
      [Os]);
    - owlready2's [search_one] and [ancestors] (module [Owlready2]);
    - the reasoner [sync_reasoner], which is a variable of the development. *)

From Stdlib Require Import String Ascii List Arith Lia Bool.
From stdpp Require Import base option list gmap strings fin_maps relations.

Local Open Scope string_scope.
#[local] Set Warnings "-register-all,-clear-no-such-hyp".

(** ** Python strings *)

Module Str.

Definition chars (s : string) : list ascii := list_ascii_of_string s.

(** [prefixb p s]: the character list [s] starts with [p]. *)
Fixpoint prefixb (p s : list ascii) : bool :=
  match p, s with
  | [], _ => true
  | _ :: _, [] => false
  | a :: p', b :: s' => Ascii.eqb a b && prefixb p' s'
  end.

(** [s.endswith(suffix)] *)
Definition endswith (s suffix : string) : bool :=
  prefixb (rev (chars suffix)) (rev (chars s)).

(** [s.startswith(prefix)] *)
Definition startswith (s prefix : string) : bool :=
  prefixb (chars prefix) (chars s).

(** [c in s] for a one-character [c]. *)
Definition contains (c : ascii) (s : string) : bool :=
  existsb (Ascii.eqb c) (chars s).

End Str.

(** ** The pattern language of owlready2's IRI search

    [search(iri = p)] with a [*] in [p] compares IRIs with SQLite's
    case-sensitive [GLOB]: [*] stands for any run of characters, [?] for
    one character, [[...]] for one character of a set ([[^...]] for its
    complement, a leading [ ] ] is a member, [a-z] is a range), and a set
    that is never closed matches nothing.  Characters are single bytes
    here. *)

Module Glob.

Inductive token : Type :=
| Star
| AnyChar
| CharSet (invert lead_bracket : bool) (body : list ascii)
| Unterminated
| Lit (c : ascii).

(** Where the scanner is inside the pattern. *)
Inductive scan : Type :=
| Outside
| Opened
| Inverted
| InSet (invert lead_bracket : bool) (rbody : list ascii).

Fixpoint tokens_from (st : scan) (p : list ascii) : list token :=
  match p with
  | [] => match st with Outside => [] | _ => [Unterminated] end
  | c :: p' =>
    match st with
    | Outside =>
        if Ascii.eqb c "*" then Star :: tokens_from Outside p'
        else if Ascii.eqb c "?" then AnyChar :: tokens_from Outside p'
        else if Ascii.eqb c "[" then tokens_from Opened p'
        else Lit c :: tokens_from Outside p'
    | Opened =>
        if Ascii.eqb c "^" then tokens_from Inverted p'
        else if Ascii.eqb c "]" then tokens_from (InSet false true []) p'
        else tokens_from (InSet false false [c]) p'
    | Inverted =>
        if Ascii.eqb c "]" then tokens_from (InSet true true []) p'
        else tokens_from (InSet true false [c]) p'
    | InSet inv lead rb =>
        if Ascii.eqb c "]" then CharSet inv lead (rev rb) :: tokens_from Outside p'
        else tokens_from (InSet inv lead (c :: rb)) p'
    end
  end.

Definition tokens (p : list ascii) : list token := tokens_from Outside p.

Definition between (lo c hi : ascii) : bool :=
  Nat.leb (nat_of_ascii lo) (nat_of_ascii c) && Nat.leb (nat_of_ascii c) (nat_of_ascii hi).

(** Is [c] listed in the body of a set?  [prior] is the last single
    character read, the possible lower end of a range. *)
Fixpoint in_body (prior : option ascii) (c : ascii) (body : list ascii) : bool :=
  match body with
  | [] => false
  | c2 :: rest =>
    match prior, rest with
    | Some lo, hi :: rest' =>
        if Ascii.eqb c2 "-" then between lo c hi || in_body None c rest'
        else Ascii.eqb c c2 || in_body (Some c2) c rest
    | _, _ => Ascii.eqb c c2 || in_body (Some c2) c rest
    end
  end.

Definition in_set (invert lead_bracket : bool) (body : list ascii) (c : ascii) : bool :=
  xorb ((lead_bracket && Ascii.eqb c "]") || in_body None c body) invert.

Fixpoint matches (ts : list token) (s : list ascii) {struct ts} : bool :=
  match ts with
  | [] => match s with [] => true | _ :: _ => false end
  | Star :: ts' =>
      (fix star (s : list ascii) : bool :=
         matches ts' s || match s with [] => false | _ :: s' => star s' end) s
  | AnyChar :: ts' =>
      match s with [] => false | _ :: s' => matches ts' s' end
  | CharSet inv lead body :: ts' =>
      match s with [] => false | c :: s' => in_set inv lead body c && matches ts' s' end
  | Unterminated :: _ => false
  | Lit c :: ts' =>
      match s with [] => false | c2 :: s' => Ascii.eqb c c2 && matches ts' s' end
  end.

(** [iri GLOB pattern] *)
Definition glob (pattern s : string) : bool :=
  matches (tokens (Str.chars pattern)) (Str.chars s).



End Glob.

(** ** Python's [os.path] *)

Module OsPath.

(** Index of the last occurrence of [c], as [str.rfind]; [None] is [-1]. *)
Fixpoint rfind (c : ascii) (s : list ascii) : option nat :=
  match s with
  | [] => None
  | a :: s' =>
    match rfind c s' with
    | Some i => Some (S i)
    | None => if Ascii.eqb a c then Some 0 else None
    end
  end.

(** [os.path.splitext]: split at the last dot of the last component,
    unless that component consists of leading dots up to there. *)
Definition splitext (p : string) : string * string :=
  let cs := Str.chars p in
  match rfind "." cs with
  | None => (p, "")
  | Some dotIndex =>
    let filenameIndex :=
      match rfind "/" cs with Some sepIndex => S sepIndex | None => 0 end in
    if Nat.leb filenameIndex dotIndex
       && existsb (fun c => negb (Ascii.eqb c "."))
            (take (dotIndex - filenameIndex) (drop filenameIndex cs))
    then (string_of_list_ascii (take dotIndex cs),
          string_of_list_ascii (drop dotIndex cs))
    else (p, "")
  end.

(** A path is kept as the list of its components below the working
    directory; [os.path.join(directory, filename)] appends one. *)
Definition join (directory : list string) (filename : string) : list string :=
  directory ++ [filename].

(** The text of a path, for messages. *)
Definition show (p : list string) : string := String.concat "/" p.

End OsPath.

(** ** Ontologies

    A class entity is known by its IRI; the ontology maps each IRI to the
    entity's local name, its declared labels, its direct superclasses
    ([is_a], by IRI) and the classes equivalent to it. *)

Record ClassEntity : Type := mkClass {
  name : string;
  label : list string;
  is_a : list string;
  equivalent_to : list string
}.

Record Ontology : Type := mkOntology {
  ontology_name : string;
  classes : gmap string ClassEntity
}.

(** ** owlready2 *)

Module Owlready2.

(** An entity as the library hands it out: the IRI and what is stored
    under it. *)
Definition Entity : Type := string * ClassEntity.

(** [ontology.search(iri = pattern)], in the store's enumeration order. *)
Definition search (ontology : Ontology) (pattern : string) : list Entity :=
  List.filter (fun e : Entity => Glob.glob pattern e.1)
    (map_to_list (classes ontology)).

(** [ontology.search_one(iri = pattern)]: the first hit, or [None]. *)
Definition search_one (ontology : Ontology) (pattern : string) : option Entity :=
  head (search ontology pattern).

(** One step of the loops of [ancestors]: [j] is entered, through [fill],
    when it is a class of the ontology that is not yet in the set. *)
Definition visit (fill : string -> ClassEntity -> gmap string ClassEntity ->
                         option (gmap string ClassEntity))
    (ontology : Ontology) (acc : option (gmap string ClassEntity)) (j : string)
    : option (gmap string ClassEntity) :=
  match acc with
  | None => None
  | Some s =>
    match classes ontology !! j with
    | None => Some s
    | Some parent =>
      match s !! j with
      | Some _ => Some s
      | None => fill j parent s
      end
    end
  end.

(** [cls.ancestors()]: the class, then recursively every equivalent class
    and every superclass not yet in the set [s].  The recursion of the
    library ends because [s] grows; here it is bounded by [fuel], and
    [None] means the bound was hit. *)
Fixpoint fill_ancestors (fuel : nat) (ontology : Ontology)
    (iri : string) (cls : ClassEntity) (s : gmap string ClassEntity)
    : option (gmap string ClassEntity) :=
  match fuel with
  | 0 => None
  | S fuel' =>
    foldl (visit (fill_ancestors fuel' ontology) ontology)
      (foldl (visit (fill_ancestors fuel' ontology) ontology)
         (Some (<[iri := cls]> s)) (equivalent_to cls))
      (is_a cls)
  end.

Definition ancestors (ontology : Ontology) (cls : Entity)
    : option (gmap string ClassEntity) :=
  fill_ancestors (S (size (classes ontology))) ontology cls.1 cls.2 ∅.

End Owlready2.

(** ** Exceptions, log records and the filesystem *)

(** The [detail] of an [HTTPException]: a text, or the message about an
    unknown ontology, kept as its two parts (the name asked for and
    [list(loaded_ontologies.keys())]). *)
Inductive Detail : Type :=
| Text (msg : string)
| OntologyNotFound (ontology_name : string) (available : list string).

(** The exceptions the service meets; all derive from [Exception]. *)
Inductive exn : Type :=
| ValueError (msg : string)
| OSError (errno_name : string)
| OtherException (msg : string)
| HTTPException (status_code : nat) (detail : Detail).

Definition exn_str (e : exn) : string :=
  match e with
  | ValueError msg => msg
  | OSError errno_name => errno_name
  | OtherException msg => msg
  | HTTPException _ (Text msg) => msg
  | HTTPException _ (OntologyNotFound n _) => n
  end.

Inductive Level : Type := DEBUG | INFO | WARNING | ERROR.

(** What the process does besides computing: calls of the logger (at any
    level), lines printed, and runs of the reasoner. *)
Inductive Event : Type :=
| Logged (level : Level) (msg : string)
| Printed (msg : string)
| ReasonerRun.

Module Os.

(** A file is kept as what [get_ontology(path).load()] makes of it: the
    ontology, or the exception of a failed load. *)
Inductive Node : Type :=
| File (parsed : exn + Ontology)
| Dir (entries : list (string * Node)).

Fixpoint entry (c : string) (es : list (string * Node)) : option Node :=
  match es with
  | [] => None
  | (c', n) :: es' => if String.eqb c c' then Some n else entry c es'
  end.

Fixpoint set_entry (c : string) (n : Node) (es : list (string * Node))
    : list (string * Node) :=
  match es with
  | [] => []
  | (c', n') :: es' =>
      if String.eqb c c' then (c', n) :: es' else (c', n') :: set_entry c n es'
  end.

Fixpoint resolve (p : list string) (n : Node) : option Node :=
  match p with
  | [] => Some n
  | c :: p' =>
    match n with
    | Dir es =>
      match entry c es with
      | Some n' => resolve p' n'
      | None => None
      end
    | File _ => None
    end
  end.

(** [os.path.exists] *)
Definition exists_ (root : list (string * Node)) (p : list string) : bool :=
  match resolve p (Dir root) with Some _ => true | None => false end.

(** [os.path.isdir] *)
Definition isdir (root : list (string * Node)) (p : list string) : bool :=
  match resolve p (Dir root) with Some (Dir _) => true | _ => false end.

(** [os.listdir] *)
Definition listdir (root : list (string * Node)) (p : list string)
    : exn + list string :=
  match resolve p (Dir root) with
  | Some (Dir es) => inr (map fst es)
  | Some (File _) => inl (OSError "NotADirectoryError")
  | None => inl (OSError "FileNotFoundError")
  end.

(** [os.makedirs]: create the missing directories along [p]; fails when
    [p] is already there or runs through a regular file. *)
Fixpoint makedirs (p : list string) (es : list (string * Node))
    : exn + list (string * Node) :=
  match p with
  | [] => inl (OSError "FileExistsError")
  | c :: p' =>
    match p' with
    | [] =>
      match entry c es with
      | Some _ => inl (OSError "FileExistsError")
      | None => inr (es ++ [(c, Dir [])])%list
      end
    | _ :: _ =>
      match entry c es with
      | Some (Dir es') =>
        match makedirs p' es' with
        | inl e => inl e
        | inr es'' => inr (set_entry c (Dir es'') es)
        end
      | Some (File _) => inl (OSError "NotADirectoryError")
      | None =>
        match makedirs p' [] with
        | inl e => inl e
        | inr es'' => inr (es ++ [(c, Dir es'')])%list
        end
      end
    end
  end.

(** [get_ontology("file://" + abspath(path)).load()] *)
Definition load (root : list (string * Node)) (p : list string)
    : exn + Ontology :=
  match resolve p (Dir root) with
  | Some (File parsed) => parsed
  | Some (Dir _) => inl (OSError "IsADirectoryError")
  | None => inl (OSError "FileNotFoundError")
  end.

End Os.

(** ** The process state and the monad of the service

    The state is what the module's functions share: the filesystem, the
    global dictionary [loaded_ontologies] and the trace of effects.  A
    computation returns, raises, or (in the model only) hits the bound of
    [Owlready2.fill_ancestors]. *)

Record State : Type := mkState {
  fs : list (string * Os.Node);
  loaded_ontologies : gmap string Ontology;
  trace : list Event
}.

Inductive Outcome (A : Type) : Type :=
| Returned (a : A)
| Raised (e : exn)
| NoFuel.

Arguments Returned {A} a.
Arguments Raised {A} e.
Arguments NoFuel {A}.

Definition M (A : Type) : Type := State -> Outcome A * State.

Definition ret {A} (a : A) : M A := fun st => (Returned a, st).

Definition bind {A B} (m : M A) (k : A -> M B) : M B :=
  fun st =>
    match m st with
    | (Returned a, st') => k a st'
    | (Raised e, st') => (Raised e, st')
    | (NoFuel, st') => (NoFuel, st')
    end.

Definition raise {A} (e : exn) : M A := fun st => (Raised e, st).

(** [try: m  except Exception as e: handler e] *)
Definition try_except {A} (m : M A) (handler : exn -> M A) : M A :=
  fun st =>
    match m st with
    | (Raised e, st') => handler e st'
    | r => r
    end.

Notation "x <- m ;; k" := (bind m (fun x => k))
  (at level 100, m at next level, right associativity).
Notation "m ;;; k" := (bind m (fun _ => k))
  (at level 100, right associativity).

Definition emit (ev : Event) : M unit :=
  fun st => (Returned tt,
             mkState (fs st) (loaded_ontologies st) (trace st ++ [ev])).

Definition logger (level : Level) (msg : string) : M unit := emit (Logged level msg).
Definition print (msg : string) : M unit := emit (Printed msg).

(** Lift a result of the operating system or of a library. *)
Definition lift {A} (r : exn + A) : M A :=
  match r with inl e => raise e | inr a => ret a end.

Fixpoint for_each {A} (l : list A) (body : A -> M unit) : M unit :=
  match l with
  | [] => ret tt
  | x :: l' => body x ;;; for_each l' body
  end.

(** [logging.basicConfig(level=logging.INFO)]: the records that reach the
    handler. *)
Definition emitted (ev : Event) : bool :=
  match ev with
  | Logged DEBUG _ => false
  | Logged _ _ => true
  | _ => false
  end.

Definition is_error (ev : Event) : bool :=
  match ev with Logged ERROR _ => true | _ => false end.

Definition is_reasoner_run (ev : Event) : bool :=
  match ev with ReasonerRun => true | _ => false end.

Definition count {A} (f : A -> bool) (l : list A) : nat := length (List.filter f l).

(** ** Application state and setup *)

Definition ONTOLOGY_DIR : list string := ["ontologies"].

Definition os_path_exists (p : list string) : M bool :=
  fun st => (Returned (Os.exists_ (fs st) p), st).

Definition os_makedirs (p : list string) : M unit :=
  fun st =>
    match Os.makedirs p (fs st) with
    | inl e => (Raised e, st)
    | inr root' => (Returned tt, mkState root' (loaded_ontologies st) (trace st))
    end.

Definition os_listdir (p : list string) : M (list string) :=
  fun st => lift (Os.listdir (fs st) p) st.

Definition get_ontology_load (p : list string) : M Ontology :=
  fun st => lift (Os.load (fs st) p) st.

(** [loaded_ontologies[ontology_name] = ontology] *)
Definition store_ontology (ontology_name : string) (ontology : Ontology) : M unit :=
  fun st => (Returned tt,
             mkState (fs st) (<[ontology_name := ontology]> (loaded_ontologies st))
               (trace st)).

(** The body of the loop over [os.listdir(directory)]. *)
Definition load_entry (directory : list string) (filename : string) : M unit :=
  if Str.endswith filename ".owl" then
    let ontology_name := (OsPath.splitext filename).1 in
    let owl_file_path := OsPath.join directory filename in
    try_except
      (logger INFO ("Loading ontology '" ++ ontology_name ++ "' from: "
                    ++ OsPath.show owl_file_path) ;;;
       ontology <- get_ontology_load owl_file_path ;;
       store_ontology ontology_name ontology ;;;
       logger INFO ("Successfully loaded '" ++ ontology_name ++ "'."))
      (fun e =>
         logger ERROR ("Failed to load ontology '" ++ filename ++ "': " ++ exn_str e))
  else ret tt.

Definition load_ontologies_from_directory (directory : list string) : M unit :=
  present <- os_path_exists directory ;;
  if negb present then
    logger WARNING ("Ontology directory '" ++ OsPath.show directory
                    ++ "' not found. Creating it.") ;;;
    os_makedirs directory ;;;
    logger INFO ("Please add your .owl ontology files to the '"
                 ++ OsPath.show directory
                 ++ "' directory and restart the application.") ;;;
    ret tt
  else
    logger INFO ("Scanning for ontologies in: " ++ OsPath.show directory) ;;;
    filenames <- os_listdir directory ;;
    for_each filenames (load_entry directory).

(** ** Functions of the application *)

(** [hasattr(entity, 'label')] holds of every entity of the library; the
    test that remains is whether the list of labels is empty. *)
Definition get_labels (entity : Owlready2.Entity) : list string :=
  match label entity.2 with
  | [] => [name entity.2]
  | _ :: _ => label entity.2
  end.

Definition fetch_superclasses (ontology : Ontology) (class_name : string)
    : M (gmap string ClassEntity) :=
  logger DEBUG ("Fetching superclasses for class: '" ++ class_name
                ++ "' in ontology '" ++ ontology_name ontology ++ "'") ;;;
  match Owlready2.search_one ontology ("*" ++ class_name) with
  | None =>
      raise (ValueError ("Class '" ++ class_name ++ "' not found in the ontology '"
                         ++ ontology_name ontology ++ "'."))
  | Some cls =>
      match Owlready2.ancestors ontology cls with
      | Some s => ret s
      | None => fun st => (NoFuel, st)
      end
  end.

(** ** Routes *)

Inductive Response : Type :=
| RedirectResponse (url : string)
| Message (message : string)
| AvailableOntologies (available_ontologies : list string)
| Superclasses (superclasses : list string).

Definition root : M Response := ret (RedirectResponse "/docs").

Definition get_loaded : M (gmap string Ontology) :=
  fun st => (Returned (loaded_ontologies st), st).

(** [list(d.keys())]; the order of insertion is not kept. *)
Definition keys (d : gmap string Ontology) : list string := (map_to_list d).*1.

Definition get_available_ontologies : M Response :=
  d <- get_loaded ;;
  if Nat.eqb (size d) 0 then
    ret (Message ("No ontologies found or loaded. Please add .owl files to the '"
                  ++ OsPath.show ONTOLOGY_DIR ++ "' directory."))
  else ret (AvailableOntologies (keys d)).

(** [labels[0] if labels else cls.name], with [labels = get_labels(cls)]:
    the string the route puts in the response for one class. *)
Definition response_label (cls : Owlready2.Entity) : string :=
  let labels := get_labels cls in
  match labels with
  | l :: _ => l
  | [] => name cls.2
  end.

Definition get_superclasses_route (ontology_name class_name : string) : M Response :=
  d <- get_loaded ;;
  match d !! ontology_name with
  | None => raise (HTTPException 404 (OntologyNotFound ontology_name (keys d)))
  | Some ontology =>
    try_except
      (superclasses <- fetch_superclasses ontology class_name ;;
       ret (Superclasses (map response_label (map_to_list superclasses))))
      (fun e =>
         match e with
         | ValueError msg => raise (HTTPException 404 (Text msg))
         | _ =>
           logger ERROR ("An unexpected error occurred while processing request: "
                         ++ exn_str e) ;;;
           raise (HTTPException 500
                    (Text "An unexpected error occurred while processing the request."))
         end)
  end.

(** The requests of the HTTP surface, and the status the framework answers
    with: the code of an [HTTPException], 500 for any other exception. *)
Inductive Request : Type :=
| GET_root
| GET_ontologies
| GET_superclasses (ontology_name class_name : string).

Definition serve (r : Request) : M Response :=
  match r with
  | GET_root => root
  | GET_ontologies => get_available_ontologies
  | GET_superclasses ontology_name class_name =>
      get_superclasses_route ontology_name class_name
  end.

Definition status (o : Outcome Response) : option nat :=
  match o with
  | Returned (RedirectResponse _) => Some 307
  | Returned _ => Some 200
  | Raised (HTTPException code _) => Some code
  | Raised _ => Some 500
  | NoFuel => None
  end.

(** Serve requests one after the other, whatever each one answers. *)
Fixpoint serve_all (rs : list Request) (st : State) : list (Outcome Response) * State :=
  match rs with
  | [] => ([], st)
  | r :: rs' =>
    let (o, st') := serve r st in
    let (os, st'') := serve_all rs' st' in
    (o :: os, st'')
  end.

(** ** Startup and shutdown *)

Section Lifespan.

(** The external reasoner, run over all loaded models at once: it fails, or
    it says how each model is updated in place. *)
Variable sync_reasoner : gmap string Ontology -> exn + (Ontology -> Ontology).

Definition run_reasoner : M unit :=
  emit ReasonerRun ;;;
  fun st =>
    match sync_reasoner (loaded_ontologies st) with
    | inl e => (Raised e, st)
    | inr update =>
        (Returned tt, mkState (fs st) (update <$> loaded_ontologies st) (trace st))
    end.

(** [lifespan], up to its [yield]. *)
Definition lifespan_startup : M unit :=
  print "--- Starting up Ontology Service ---" ;;;
  load_ontologies_from_directory ONTOLOGY_DIR ;;;
  d <- get_loaded ;;
  if negb (Nat.eqb (size d) 0) then
    print "--- Running Reasoner (HermiT) on all loaded ontologies ---" ;;;
    try_except
      (run_reasoner ;;;
       print "--- Reasoning completed successfully. ---")
      (fun e =>
         logger ERROR ("Reasoning failed. Check if Java is installed and accessible. Error: "
                       ++ exn_str e) ;;;
         logger WARNING "The service will continue using only explicitly asserted (non-inferred) knowledge.")
  else ret tt.

(** [lifespan], after its [yield]. *)
Definition lifespan_shutdown : M unit :=
  print "--- Shutting down Ontology Service ---" ;;;
  fun st => (Returned tt, mkState (fs st) ∅ (trace st)).

End Lifespan.

(** The state of the process when the module has been imported. *)
Definition initial_state (root_dir : list (string * Os.Node)) : State :=
  mkState root_dir ∅ [].

(** ** Vocabulary of the statements *)


(** The state after the call of [logger.debug] that opens
    [fetch_superclasses]. *)
Definition entered (ontology : Ontology) (class_name : string) (st : State) : State :=
  mkState (fs st) (loaded_ontologies st)
    (trace st ++ [Logged DEBUG ("Fetching superclasses for class: '" ++ class_name
                    ++ "' in ontology '" ++ ontology_name ontology ++ "'")]).






(** The entries of a listing that the scan tries to load, and how they
    fare. *)
Definition owl_files (filenames : list string) : list string :=
  List.filter (fun filename => Str.endswith filename ".owl") filenames.

Definition loads (root_dir : list (string * Os.Node)) (directory : list string)
    (filename : string) : bool :=
  match Os.load root_dir (OsPath.join directory filename) with
  | inr _ => true
  | inl _ => false
  end.

Definition valid_files (root_dir : list (string * Os.Node)) (directory : list string)
    (filenames : list string) : list string :=
  List.filter (loads root_dir directory) (owl_files filenames).

Definition invalid_files (root_dir : list (string * Os.Node)) (directory : list string)
    (filenames : list string) : list string :=
  List.filter (fun filename => negb (loads root_dir directory filename))
    (owl_files filenames).

(** The key under which a file is stored. *)
Definition derived_name (filename : string) : string := (OsPath.splitext filename).1.

(** A name as [os.listdir] gives it (no separator), of a file that is not
    hidden. *)
Definition plain_name (filename : string) : bool :=
  negb (Str.startswith filename ".") && negb (Str.contains "/" filename).


(** The dictionary after the files of a listing have been stored, one
    after the other, each under its derived name. *)
Definition store_files (root_dir : list (string * Os.Node)) (directory : list string)
    (filenames : list string) (d : gmap string Ontology) : gmap string Ontology :=
  foldl (fun d filename =>
           match Os.load root_dir (OsPath.join directory filename) with
           | inr ontology => <[derived_name filename := ontology]> d
           | inl _ => d
           end)
    d (owl_files filenames).

(** The records that the scan writes about one file. *)
Definition failure_record (filename : string) (e : exn) : Event :=
  Logged ERROR ("Failed to load ontology '" ++ filename ++ "': " ++ exn_str e).

Definition success_record (filename : string) : Event :=
  Logged INFO ("Successfully loaded '" ++ derived_name filename ++ "'.").

(** What the records written by a scan say about the files of a listing:
    a failure record for each file that fails, a success record for each
    file that loads, and no ERROR record besides. *)
Definition reports (root_dir : list (string * Os.Node)) (directory : list string)
    (filenames : list string) (evs : list Event) : Prop :=
  (forall f, f ∈ filenames -> Str.endswith f ".owl" = true ->
     match Os.load root_dir (OsPath.join directory f) with
     | inl e => failure_record f e ∈ evs
     | inr _ => success_record f ∈ evs
     end)
  /\ (forall ev, ev ∈ evs -> is_error ev = true ->
        exists f e, f ∈ filenames /\ Str.endswith f ".owl" = true
          /\ Os.load root_dir (OsPath.join directory f) = inl e
          /\ ev = failure_record f e).

(** ** Sample data *)

Module Sample.

Definition animal_iri : string := "http://example.org/animals#Animal_003".
Definition mammal_iri : string := "http://example.org/animals#Mammal".
Definition dog_iri : string := "http://example.org/animals#Dog".

Definition animal : ClassEntity := mkClass "Animal_003" [] [] [].
Definition mammal : ClassEntity := mkClass "Mammal" ["Mammal"] [animal_iri] [].
Definition dog : ClassEntity := mkClass "Dog" ["Dog"; "Canine"] [mammal_iri] [].

Definition animals : Ontology :=
  mkOntology "animals"
    (<[dog_iri := dog]> (<[mammal_iri := mammal]> (<[animal_iri := animal]> ∅))).

(** A running service with one ontology. *)
Definition serving : State := mkState [] (<["animals" := animals]> ∅) [].

(** Two hidden files whose names lose different extensions. *)
Definition hidden : list (string * Os.Node) :=
  [("ontologies",
    Os.Dir [(".owl", Os.File (inr animals));
            (".owl.owl", Os.File (inr (mkOntology "plants" ∅)))])].

(** One file that loads, one that does not, one that is not looked at. *)
Definition mixed : list (string * Os.Node) :=
  [("ontologies",
    Os.Dir [("animals.owl", Os.File (inr animals));
            ("broken.owl", Os.File (inl (OtherException "not an ontology")));
            ("notes.txt", Os.File (inl (OtherException "not an ontology")))])].

(** [data] is a regular file, so nothing can be created below it. *)
Definition blocked : list (string * Os.Node) :=
  [("data", Os.File (inl (OtherException "not an ontology")))].

Definition bare : list (string * Os.Node) := [("data", Os.Dir [])].

(** A reasoner that cannot start. *)
Definition no_java : gmap string Ontology -> exn + (Ontology -> Ontology) :=
  fun _ => inl (OtherException "java not found").



(** A running service that already holds an ontology under another name. *)
Definition replanted : State :=
  mkState mixed (<["plants" := mkOntology "plants" ∅]> ∅) [].

End Sample.

(** * Properties *)

(** ** Strings and patterns *)

Section GlobFacts.

Lemma ascii_eqb_true (a b : ascii) : Ascii.eqb a b = true <-> a = b.
Proof. apply Ascii.eqb_eq. Qed.

Lemma prefixb_spec (p s : list ascii) :
  Str.prefixb p s = true <-> exists k, s = (p ++ k)%list.
Proof.
  revert s. induction p as [|a p IH]; intros s; simpl.
  - split; [intros _; by exists s | done].
  - destruct s as [|b s].
    + split; [done | intros [k Hk]; discriminate].
    + rewrite andb_true_iff, ascii_eqb_true, IH. split.
      * intros [-> [k ->]]. by exists k.
      * intros [k Hk]. injection Hk as -> ->. split; [done | by exists k].
Qed.

Lemma endswith_spec (s suffix : string) :
  Str.endswith s suffix = true <->
  exists k, Str.chars s = (k ++ Str.chars suffix)%list.
Proof.
  unfold Str.endswith. rewrite prefixb_spec. split.
  - intros [k Hk]. exists (rev k).
    rewrite <- (rev_involutive (Str.chars s)), Hk, rev_app_distr.
    by rewrite rev_involutive.
  - intros [k ->]. exists (rev k). by rewrite rev_app_distr.
Qed.





End GlobFacts.

Example glob_suffix : Glob.glob "*Dog" "http://example.org/animals#Dog" = true.
Proof. reflexivity. Qed.

Example glob_range : Glob.glob "*[A-D]og" "http://example.org/animals#Dog" = true.
Proof. reflexivity. Qed.

Example glob_complement : Glob.glob "*[^A-D]og" "http://example.org/animals#Dog" = false.
Proof. reflexivity. Qed.

Example glob_open_set : Glob.glob "*[Dog" "http://example.org/animals#[Dog" = false.
Proof. reflexivity. Qed.

Example splitext_plain : OsPath.splitext "animals.owl" = ("animals", ".owl").
Proof. reflexivity. Qed.

Example splitext_hidden : OsPath.splitext ".owl" = (".owl", "").
Proof. reflexivity. Qed.

Example splitext_hidden_owl : OsPath.splitext ".owl.owl" = (".owl", ".owl").
Proof. reflexivity. Qed.

(** ** The ancestor set *)

Section Ancestors.

Variable ontology : Ontology.






End Ancestors.

(** ** Searching a class and answering a query *)




(** What one call of [fetch_superclasses] does. *)
Lemma fetch_superclasses_run (ontology : Ontology) (class_name : string) (st : State) :
  fetch_superclasses ontology class_name st =
  (match Owlready2.search_one ontology ("*" ++ class_name) with
   | None =>
       Raised (ValueError ("Class '" ++ class_name ++ "' not found in the ontology '"
                           ++ ontology_name ontology ++ "'."))
   | Some cls =>
       match Owlready2.ancestors ontology cls with
       | Some s => Returned s
       | None => NoFuel
       end
   end, entered ontology class_name st).
Proof.
  unfold fetch_superclasses, bind, logger, emit, entered.
  destruct (Owlready2.search_one ontology ("*" ++ class_name)) as [cls|]; [| done].
  by destruct (Owlready2.ancestors ontology cls).
Qed.


(** Open the route up to its call of [fetch_superclasses]. *)
Ltac enter_route :=
  unfold get_superclasses_route, bind, get_loaded, try_except.










Lemma fetch_superclasses_trace (ontology : Ontology) (class_name : string) (st : State) :
  exists msg, trace (fetch_superclasses ontology class_name st).2
              = (trace st ++ [Logged DEBUG msg])%list.
Proof. rewrite fetch_superclasses_run. by eexists. Qed.

(** C6.  A request that names an ontology which is not a key of
    [loaded_ontologies] is rejected with status 404 and leaves the state as
    it was: no search ran, and the trace is not that of any call of
    [fetch_superclasses]. *)
Theorem unknown_ontology_rejected (st : State) (ontology_name class_name : string) :
  loaded_ontologies st !! ontology_name = None ->
  get_superclasses_route ontology_name class_name st
    = (Raised (HTTPException 404
                 (OntologyNotFound ontology_name (keys (loaded_ontologies st)))), st)
  /\ status (get_superclasses_route ontology_name class_name st).1 = Some 404
  /\ forall ontology name',
       trace (get_superclasses_route ontology_name class_name st).2
       <> trace (fetch_superclasses ontology name' st).2.
Proof.
  intros Hl.
  assert (get_superclasses_route ontology_name class_name st
    = (Raised (HTTPException 404
                 (OntologyNotFound ontology_name (keys (loaded_ontologies st)))), st))
    as ->.
  { unfold get_superclasses_route, bind, get_loaded. by rewrite Hl. }
  repeat split. intros ontology name'.
  destruct (fetch_superclasses_trace ontology name' st) as [msg ->]. cbn [snd].
  intros H. apply (f_equal length) in H. rewrite length_app in H. simpl in H. lia.
Qed.

Lemma unknown_ontology_rejected_witness :
  get_superclasses_route "plants" "Dog" Sample.serving
  = (Raised (HTTPException 404 (OntologyNotFound "plants" ["animals"])),
     Sample.serving).
Proof.
  exact (proj1 (unknown_ontology_rejected Sample.serving "plants" "Dog" eq_refl)).
Defined.

(** C7.  Label resolution is a function from class entities to strings:
    the first declared label when there is one, the local name otherwise;
    the route's answer has one string per class of the ancestor set. *)
Theorem label_resolution (cls : Owlready2.Entity) (s : gmap string ClassEntity) :
  response_label cls
  = match label cls.2 with
    | first :: _ => first
    | [] => name cls.2
    end
  /\ length (map response_label (map_to_list s)) = size s.
Proof.
  split.
  - unfold response_label, get_labels. by destruct (label cls.2).
  - rewrite length_map. apply length_map_to_list.
Qed.

Example dog_label :
  response_label ("http://example.org/animals#Dog", mkClass "Dog" ["Dog"; "Canine"] [] [])
  = "Dog".
Proof. reflexivity. Qed.

Example unlabelled_label :
  response_label ("http://example.org/animals#Animal_003", mkClass "Animal_003" [] [] [])
  = "Animal_003".
Proof. reflexivity. Qed.

(** C10.  [get_labels] never returns the empty list: it returns the
    declared labels when there are some and the one-element list of the
    local name otherwise; so the route always takes [labels[0]] and never
    the [else cls.name] arm. *)
Theorem get_labels_nonempty (cls : Owlready2.Entity) :
  get_labels cls <> []
  /\ get_labels cls = (if decide (label cls.2 = []) then [name cls.2] else label cls.2)
  /\ exists first rest, get_labels cls = first :: rest /\ response_label cls = first.
Proof.
  unfold response_label, get_labels.
  destruct (label cls.2) as [|l ls]; repeat split; try done; by eexists _, _.
Qed.

(** A request leaves the dictionary and the filesystem as they were. *)
Lemma serve_store (r : Request) (st : State) :
  loaded_ontologies (serve r st).2 = loaded_ontologies st
  /\ fs (serve r st).2 = fs st.
Proof.
  destruct r as [| |ontology_name class_name]; simpl.
  - done.
  - unfold get_available_ontologies, bind, get_loaded.
    by destruct (Nat.eqb _ _).
  - enter_route.
    destruct (loaded_ontologies st !! ontology_name) as [o|]; [| done].
    cbv beta. rewrite fetch_superclasses_run.
    destruct (Owlready2.search_one o ("*" ++ class_name)) as [cls|]; [| done].
    by destruct (Owlready2.ancestors o cls).
Qed.

(** C9.  No query changes [loaded_ontologies]: the dictionary is the same
    after any sequence of requests, after each single request, and after
    each call of [fetch_superclasses]. *)
Theorem queries_preserve_store (rs : list Request) (st : State) :
  loaded_ontologies (serve_all rs st).2 = loaded_ontologies st
  /\ (forall r, loaded_ontologies (serve r st).2 = loaded_ontologies st)
  /\ (forall ontology class_name,
        loaded_ontologies (fetch_superclasses ontology class_name st).2
        = loaded_ontologies st).
Proof.
  repeat split.
  - revert st. induction rs as [|r rs IH]; intros st; [done |].
    cbn [serve_all]. pose proof (serve_store r st) as [Hr _].
    destruct (serve r st) as [o st1]. specialize (IH st1).
    destruct (serve_all rs st1) as [os st2]. simpl in *. congruence.
  - intros r. apply serve_store.
  - intros ontology class_name. by rewrite fetch_superclasses_run.
Qed.

(** ** Loading the directory *)

(** With the level set to INFO, a failure logged at ERROR reaches the
    handler, and the DEBUG record of [fetch_superclasses] does not. *)
Lemma error_records_emitted (ev : Event) : is_error ev = true -> emitted ev = true.
Proof. by destruct ev as [[] msg| |]. Qed.

Lemma count_app {A} (f : A -> bool) (l1 l2 : list A) :
  count f (l1 ++ l2)%list = count f l1 + count f l2.
Proof. unfold count. by rewrite List.filter_app, length_app. Qed.

Lemma count_snoc {A} (f : A -> bool) (l : list A) (x : A) :
  count f (l ++ [x])%list = count f l + (if f x then 1 else 0).
Proof. rewrite count_app. unfold count. simpl. by destruct (f x). Qed.

(** One pass of the loop body: the file is skipped, stored, or its
    failure is logged; the filesystem is left alone and the reasoner is
    not run. *)
Lemma load_entry_run (directory : list string) (filename : string) (st : State) :
  exists st',
    load_entry directory filename st = (Returned tt, st')
    /\ fs st' = fs st
    /\ dom (loaded_ontologies st')
       = dom (loaded_ontologies st)
         ∪ list_to_set (map derived_name (valid_files (fs st) directory [filename]))
    /\ count is_error (trace st')
       = count is_error (trace st)
         + length (invalid_files (fs st) directory [filename])
    /\ count is_reasoner_run (trace st') = count is_reasoner_run (trace st).
Proof.
  unfold load_entry, valid_files, invalid_files, owl_files, loads. cbn [List.filter].
  destruct (Str.endswith filename ".owl").
  - unfold try_except, bind, logger, emit, get_ontology_load, store_ontology.
    cbn [fs loaded_ontologies trace]. cbn [List.filter].
    destruct (Os.load (fs st) (OsPath.join directory filename)) as [e|o];
      cbn [lift raise ret fs loaded_ontologies trace negb map length];
      eexists; (split; [reflexivity |]); cbn [fs loaded_ontologies trace];
      rewrite ?count_snoc, ?count_app; cbn [is_error is_reasoner_run].
    + repeat split; try lia. set_solver.
    + repeat split; try lia. rewrite dom_insert_L. set_solver.
  - eexists. split; [reflexivity |]. cbn. repeat split; try lia. set_solver.
Qed.

Lemma owl_files_cons (f : string) (l : list string) :
  owl_files (f :: l) = (owl_files [f] ++ owl_files l)%list.
Proof. unfold owl_files. simpl. by destruct (Str.endswith f ".owl"). Qed.

Lemma valid_files_cons root_dir directory (f : string) (l : list string) :
  valid_files root_dir directory (f :: l)
  = (valid_files root_dir directory [f] ++ valid_files root_dir directory l)%list.
Proof. unfold valid_files. by rewrite owl_files_cons, List.filter_app. Qed.

Lemma invalid_files_cons root_dir directory (f : string) (l : list string) :
  invalid_files root_dir directory (f :: l)
  = (invalid_files root_dir directory [f] ++ invalid_files root_dir directory l)%list.
Proof. unfold invalid_files. by rewrite owl_files_cons, List.filter_app. Qed.

Lemma load_entries_run (directory : list string) (filenames : list string) :
  forall st, exists st',
    for_each filenames (load_entry directory) st = (Returned tt, st')
    /\ fs st' = fs st
    /\ dom (loaded_ontologies st')
       = dom (loaded_ontologies st)
         ∪ list_to_set (map derived_name (valid_files (fs st) directory filenames))
    /\ count is_error (trace st')
       = count is_error (trace st)
         + length (invalid_files (fs st) directory filenames)
    /\ count is_reasoner_run (trace st') = count is_reasoner_run (trace st).
Proof.
  induction filenames as [|f l IH]; intros st.
  - exists st. cbn. repeat split; try lia. set_solver.
  - destruct (load_entry_run directory f st) as (st1 & H1 & Hfs1 & Hd1 & He1 & Hr1).
    destruct (IH st1) as (st2 & H2 & Hfs2 & Hd2 & He2 & Hr2).
    exists st2. cbn [for_each]. unfold bind at 1. rewrite H1, H2.
    rewrite valid_files_cons, invalid_files_cons, map_app, length_app, list_to_set_app_L.
    rewrite Hfs1 in *. repeat split; try congruence; try lia.
    rewrite Hd2, Hd1. set_solver.
Qed.

(** ** Names derived from file names *)

Lemma chars_app (s1 s2 : string) :
  Str.chars (s1 ++ s2) = (Str.chars s1 ++ Str.chars s2)%list.
Proof. induction s1 as [|a s1 IH]; simpl; [done | by rewrite <- IH]. Qed.

Lemma chars_inj (s1 s2 : string) : Str.chars s1 = Str.chars s2 -> s1 = s2.
Proof.
  intros H. rewrite <- (string_of_list_ascii_of_string s1),
    <- (string_of_list_ascii_of_string s2). unfold Str.chars in H. by rewrite H.
Qed.

Lemma rfind_app (c : ascii) (l r : list ascii) :
  OsPath.rfind c (l ++ r)%list
  = match OsPath.rfind c r with
    | Some i => Some (length l + i)
    | None => OsPath.rfind c l
    end.
Proof.
  induction l as [|a l IH]; simpl.
  - by destruct (OsPath.rfind c r).
  - rewrite IH. by destruct (OsPath.rfind c r).
Qed.

Lemma rfind_absent (c : ascii) (l : list ascii) :
  existsb (Ascii.eqb c) l = false -> OsPath.rfind c l = None.
Proof.
  induction l as [|a l IH]; simpl; [done |].
  rewrite orb_false_iff. intros [Ha Hl]. rewrite (IH Hl).
  by rewrite Ascii.eqb_sym, Ha.
Qed.

(** Stripping [.owl] from a plain name gives back what precedes it. *)
Lemma derived_name_plain (filename : string) :
  Str.endswith filename ".owl" = true -> plain_name filename = true ->
  (derived_name filename ++ ".owl") = filename.
Proof.
  intros Hend Hplain. apply endswith_spec in Hend as [k Hk].
  change (Str.chars ".owl") with ["."; "o"; "w"; "l"]%char in Hk.
  unfold plain_name, Str.startswith, Str.contains in Hplain.
  apply andb_true_iff in Hplain as [Hdot Hslash].
  apply negb_true_iff in Hdot, Hslash. rewrite Hk in Hdot, Hslash.
  destruct k as [|a k]; [done |].
  cbn [Str.chars list_ascii_of_string Str.prefixb app] in Hdot.
  rewrite andb_true_r in Hdot.
  assert (derived_name filename = string_of_list_ascii (a :: k)) as ->.
  { unfold derived_name, OsPath.splitext. rewrite Hk.
    rewrite (rfind_absent "/" _ Hslash), rfind_app.
    cbn [OsPath.rfind Ascii.eqb Bool.eqb]. cbn [Nat.leb andb].
    rewrite Nat.add_0_r, Nat.sub_0_r, drop_0, !take_app_length.
    cbn [existsb]. rewrite Ascii.eqb_sym, Hdot. done. }
  apply chars_inj. rewrite chars_app, Hk. unfold Str.chars at 1.
  by rewrite list_ascii_of_string_of_list_ascii.
Qed.

(** In a listing of plain names without repetition, the files that load
    get pairwise distinct keys. *)
Lemma derived_names_distinct (root_dir : list (string * Os.Node))
    (directory filenames : list string) :
  NoDup filenames ->
  Forall (fun filename => plain_name filename = true) filenames ->
  NoDup (map derived_name (valid_files root_dir directory filenames)).
Proof.
  intros Hnd Hplain. apply NoDup_fmap_2_strong.
  - assert (forall f, f ∈ valid_files root_dir directory filenames ->
              Str.endswith f ".owl" = true /\ plain_name f = true) as Hin.
    { intros f Hf. unfold valid_files, owl_files in Hf.
      apply list_elem_of_In in Hf. apply filter_In in Hf as [Hf _].
      apply filter_In in Hf as [Hf Hend]. split; [done |].
      rewrite Forall_forall in Hplain. apply Hplain. by apply list_elem_of_In. }
    intros f1 f2 H1 H2 Heq.
    destruct (Hin f1 H1) as [He1 Hp1]. destruct (Hin f2 H2) as [He2 Hp2].
    rewrite <- (derived_name_plain f1 He1 Hp1), <- (derived_name_plain f2 He2 Hp2).
    by rewrite Heq.
  - unfold valid_files, owl_files. apply NoDup_ListNoDup.
    apply List.NoDup_filter, List.NoDup_filter. by apply NoDup_ListNoDup.
Qed.

(** The scan of a directory that is there. *)
Lemma load_existing_run (directory : list string) (st : State)
    (entries : list (string * Os.Node)) :
  Os.resolve directory (Os.Dir (fs st)) = Some (Os.Dir entries) ->
  exists st',
    load_ontologies_from_directory directory st = (Returned tt, st')
    /\ fs st' = fs st
    /\ dom (loaded_ontologies st')
       = dom (loaded_ontologies st)
         ∪ list_to_set (map derived_name (valid_files (fs st) directory entries.*1))
    /\ count is_error (trace st')
       = count is_error (trace st)
         + length (invalid_files (fs st) directory entries.*1)
    /\ count is_reasoner_run (trace st') = count is_reasoner_run (trace st).
Proof.
  intros Hres.
  unfold load_ontologies_from_directory, bind, os_path_exists, os_listdir,
    Os.exists_, Os.listdir, logger, emit.
  rewrite Hres. cbn [negb lift ret fs loaded_ontologies trace].
  rewrite Hres. cbn [lift ret].
  destruct (load_entries_run directory entries.*1
              (mkState (fs st) (loaded_ontologies st)
                 (trace st ++ [Logged INFO ("Scanning for ontologies in: "
                                            ++ OsPath.show directory)])))
    as (st' & Hrun & Hfs & Hd & He & Hr).
  cbn [fs loaded_ontologies trace] in *.
  exists st'. rewrite !count_snoc in *. cbn [is_error is_reasoner_run] in *.
  repeat split; try done; lia.
Qed.




(** ** Creating the directory *)

Lemma entry_set_entry (c : string) (n : Os.Node) (es : list (string * Os.Node)) :
  is_Some (Os.entry c es) -> Os.entry c (Os.set_entry c n es) = Some n.
Proof.
  induction es as [|[c' n'] es IH]; simpl; intros [x Hx]; [done |].
  destruct (String.eqb c c') eqn:E; simpl; rewrite E; [done |].
  apply IH. by exists x.
Qed.

Lemma entry_snoc (c : string) (n : Os.Node) (es : list (string * Os.Node)) :
  Os.entry c es = None -> Os.entry c (es ++ [(c, n)])%list = Some n.
Proof.
  induction es as [|[c' n'] es IH]; simpl; intros H.
  - by rewrite String.eqb_refl.
  - destruct (String.eqb c c'); [done | by apply IH].
Qed.

Lemma makedirs_creates (p : list string) :
  forall es es', Os.makedirs p es = inr es' ->
    Os.resolve p (Os.Dir es') = Some (Os.Dir []).
Proof.
  induction p as [|c p IH]; intros es es'; [done |].
  cbn [Os.makedirs Os.resolve]. destruct p as [|c2 p].
  - destruct (Os.entry c es) eqn:E; [done |].
    intros H. injection H as <-. by rewrite entry_snoc.
  - destruct (Os.entry c es) as [[parsed|sub]|] eqn:E; [done | |].
    + destruct (Os.makedirs (c2 :: p) sub) as [e|sub'] eqn:Em; [done |].
      intros H. injection H as <-. rewrite entry_set_entry by (by rewrite E).
      by eapply IH.
    + destruct (Os.makedirs (c2 :: p) []) as [e|sub'] eqn:Em; [done |].
      intros H. injection H as <-. rewrite entry_snoc by done.
      by eapply IH.
Qed.

(** C5, amended.  For every path that does not exist and that
    [os.makedirs] can create, [load_ontologies_from_directory] returns
    normally from the initial state, the path is then an empty directory,
    and the store is empty. *)
Theorem load_creates_directory (root_dir root_dir' : list (string * Os.Node))
    (directory : list string) :
  Os.exists_ root_dir directory = false ->
  Os.makedirs directory root_dir = inr root_dir' ->
  exists st',
    load_ontologies_from_directory directory (initial_state root_dir) = (Returned tt, st')
    /\ fs st' = root_dir'
    /\ Os.isdir root_dir' directory = true
    /\ Os.listdir root_dir' directory = inr []
    /\ loaded_ontologies st' = ∅.
Proof.
  intros Hex Hmk. pose proof (makedirs_creates _ _ _ Hmk) as Hres.
  unfold load_ontologies_from_directory, bind, os_path_exists, os_makedirs,
    logger, emit, initial_state.
  cbn [fs loaded_ontologies trace]. rewrite Hex. cbn [negb fs]. rewrite Hmk.
  eexists. split; [reflexivity |]. cbn [fs loaded_ontologies].
  unfold Os.isdir, Os.listdir. by rewrite Hres.
Qed.

Lemma load_creates_directory_witness :
  exists st',
    load_ontologies_from_directory ["data"; "ontologies"] (initial_state Sample.bare)
      = (Returned tt, st')
    /\ fs st' = [("data", Os.Dir [("ontologies", Os.Dir [])])]
    /\ Os.isdir [("data", Os.Dir [("ontologies", Os.Dir [])])] ["data"; "ontologies"] = true
    /\ Os.listdir [("data", Os.Dir [("ontologies", Os.Dir [])])] ["data"; "ontologies"] = inr []
    /\ loaded_ontologies st' = ∅.
Proof.
  exact (load_creates_directory Sample.bare _ ["data"; "ontologies"] eq_refl eq_refl).
Defined.

(** [data/ontologies] does not exist, and cannot be created because
    [data] is a regular file: the error of [os.makedirs] leaves the
    function, and no directory is created. *)
Lemma load_blocked_raises :
  Os.exists_ Sample.blocked ["data"; "ontologies"] = false
  /\ (load_ontologies_from_directory ["data"; "ontologies"]
        (initial_state Sample.blocked)).1
     = Raised (OSError "NotADirectoryError")
  /\ fs (load_ontologies_from_directory ["data"; "ontologies"]
           (initial_state Sample.blocked)).2 = Sample.blocked.
Proof. vm_compute. done. Qed.

(** ** The reasoner *)






(** * Further properties *)

(** ** The ancestor set, exactly *)

Section Reachable.

Variable ontology : Ontology.





End Reachable.








(** ** The answers of the routes *)





Lemma serve_outcome_store (r : Request) (st st' : State) :
  loaded_ontologies st = loaded_ontologies st' -> (serve r st).1 = (serve r st').1.
Proof.
  intros Heq. destruct r as [| |key class_name]; cbn [serve].
  - done.
  - unfold get_available_ontologies, bind, get_loaded. rewrite Heq.
    by destruct (Nat.eqb _ _).
  - enter_route. rewrite Heq.
    destruct (loaded_ontologies st' !! key) as [o|]; [| done].
    cbv beta. rewrite !fetch_superclasses_run.
    destruct (Owlready2.search_one o ("*" ++ class_name)) as [cls|]; [| done].
    by destruct (Owlready2.ancestors o cls).
Qed.

(** X5.  Requests do not influence each other: the answers to a sequence
    of requests are the answers each request would get on its own in the
    state the sequence started from. *)
Theorem requests_independent (rs : list Request) (st : State) :
  (serve_all rs st).1 = map (fun r => (serve r st).1) rs.
Proof.
  assert (forall st', loaded_ontologies st' = loaded_ontologies st ->
            (serve_all rs st').1 = map (fun r => (serve r st).1) rs) as H.
  { induction rs as [|r rs IH]; intros st' Heq; [done |].
    cbn [serve_all map]. pose proof (serve_store r st') as [Hr _].
    pose proof (serve_outcome_store r st' st Heq) as Ho.
    destruct (serve r st') as [o st1]. cbn [fst snd] in *.
    specialize (IH st1). destruct (serve_all rs st1) as [os st2]. cbn [fst] in *.
    rewrite Ho, IH; [done | congruence]. }
  by apply H.
Qed.

(** X6.  [get_available_ontologies] answers with the message exactly when
    nothing is loaded, and otherwise lists each key of the dictionary
    once; and a name is a key exactly when the superclass route does not
    reject it as an unknown ontology. *)
Theorem available_ontologies_listing (st : State) :
  match (get_available_ontologies st).1 with
  | Returned (AvailableOntologies names) =>
      loaded_ontologies st <> ∅ /\ NoDup names
      /\ forall n, n ∈ names <-> is_Some (loaded_ontologies st !! n)
  | Returned (Message _) => loaded_ontologies st = ∅
  | _ => False
  end
  /\ forall n class_name,
       is_Some (loaded_ontologies st !! n) <->
       forall available,
         (get_superclasses_route n class_name st).1
         <> Raised (HTTPException 404 (OntologyNotFound n available)).
Proof.
  split.
  - unfold get_available_ontologies, bind, get_loaded.
    destruct (Nat.eqb (size (loaded_ontologies st)) 0) eqn:E; cbn [fst ret].
    + apply Nat.eqb_eq in E. by apply map_size_empty_iff.
    + apply Nat.eqb_neq in E. split; [by apply map_size_non_empty_iff |].
      unfold keys. split; [apply NoDup_fst_map_to_list |].
      intros n. rewrite <- elem_of_dom. by rewrite dom_alt, elem_of_list_to_set.
  - intros n class_name. enter_route.
    destruct (loaded_ontologies st !! n) as [o|] eqn:El.
    + split; [| by eexists]. intros _ available. cbv beta.
      rewrite fetch_superclasses_run.
      destruct (Owlready2.search_one o ("*" ++ class_name)) as [cls|]; [| done].
      by destruct (Owlready2.ancestors o cls).
    + split; [by intros [x Hx] |]. intros H. exfalso. by eapply H.
Qed.

(** ** What the scan stores and reports *)

(** X7.  Entries whose name does not end with [.owl] are skipped without
    any effect: the loop over a listing ends in the same result and state
    as the loop over its [.owl] entries alone. *)
Theorem scan_skips_other_files (directory filenames : list string) (st : State) :
  for_each filenames (load_entry directory) st
  = for_each (owl_files filenames) (load_entry directory) st.
Proof.
  revert st. induction filenames as [|f l IH]; intros st; [done |].
  rewrite owl_files_cons. unfold owl_files at 1. cbn [List.filter].
  destruct (Str.endswith f ".owl") eqn:E; cbn [app for_each]; unfold bind.
  - destruct (load_entry directory f st) as [[[]| |] st1]; [apply IH | done..].
  - unfold load_entry. rewrite E. cbn [ret]. apply IH.
Qed.

Lemma store_files_app root_dir directory (l1 l2 : list string) d :
  store_files root_dir directory (l1 ++ l2)%list d
  = store_files root_dir directory l2 (store_files root_dir directory l1 d).
Proof.
  unfold store_files, owl_files. by rewrite List.filter_app, foldl_app.
Qed.

Lemma store_files_other root_dir directory (l : list string) d (n : string) :
  n ∉ map derived_name (valid_files root_dir directory l) ->
  store_files root_dir directory l d !! n = d !! n.
Proof.
  revert d. induction l as [|f l IH]; intros d Hn; [done |].
  change (f :: l) with ([f] ++ l)%list. rewrite store_files_app.
  rewrite valid_files_cons, map_app in Hn.
  apply not_elem_of_app in Hn as [Hf Hl]. rewrite IH by done.
  unfold store_files, valid_files, owl_files, loads in *. cbn [List.filter] in *.
  destruct (Str.endswith f ".owl"); [| done]. cbn [foldl List.filter] in *.
  destruct (Os.load root_dir (OsPath.join directory f)); [done |].
  cbn [map] in Hf. apply not_elem_of_cons in Hf as [Hne _].
  by rewrite lookup_insert_ne.
Qed.

Lemma store_files_last root_dir directory (before after : list string)
    (f : string) (o : Ontology) d :
  Str.endswith f ".owl" = true ->
  Os.load root_dir (OsPath.join directory f) = inr o ->
  derived_name f ∉ map derived_name (valid_files root_dir directory after) ->
  store_files root_dir directory (before ++ f :: after)%list d !! derived_name f
  = Some o.
Proof.
  intros He Hl Hafter. change (f :: after) with ([f] ++ after)%list.
  rewrite !store_files_app, store_files_other by done.
  unfold store_files at 1, owl_files. cbn [List.filter]. rewrite He.
  cbn [foldl]. rewrite Hl. apply lookup_insert_eq.
Qed.

(** The loop leaves the dictionary that storing the files one by one
    gives. *)
Lemma load_entries_store (directory filenames : list string) :
  forall st, exists st',
    for_each filenames (load_entry directory) st = (Returned tt, st')
    /\ fs st' = fs st
    /\ loaded_ontologies st'
       = store_files (fs st) directory filenames (loaded_ontologies st).
Proof.
  induction filenames as [|f l IH]; intros st.
  - by exists st.
  - assert (exists st1, load_entry directory f st = (Returned tt, st1)
              /\ fs st1 = fs st
              /\ loaded_ontologies st1
                 = store_files (fs st) directory [f] (loaded_ontologies st))
      as (st1 & H1 & Hfs1 & Hd1).
    { unfold load_entry, store_files, owl_files. cbn [List.filter].
      destruct (Str.endswith f ".owl"); [| by eexists].
      unfold try_except, bind, logger, emit, get_ontology_load, store_ontology.
      cbn [fs loaded_ontologies trace foldl].
      destruct (Os.load (fs st) (OsPath.join directory f)) as [e|o];
        cbn [lift raise ret]; by eexists. }
    destruct (IH st1) as (st2 & H2 & Hfs2 & Hd2).
    exists st2. cbn [for_each]. unfold bind at 1. rewrite H1, H2.
    change (f :: l) with ([f] ++ l)%list. rewrite store_files_app.
    rewrite Hfs1 in *. repeat split; congruence.
Qed.

Lemma load_existing_store (directory : list string) (st : State)
    (entries : list (string * Os.Node)) :
  Os.resolve directory (Os.Dir (fs st)) = Some (Os.Dir entries) ->
  exists st',
    load_ontologies_from_directory directory st = (Returned tt, st')
    /\ fs st' = fs st
    /\ loaded_ontologies st'
       = store_files (fs st) directory entries.*1 (loaded_ontologies st).
Proof.
  intros Hres.
  unfold load_ontologies_from_directory, bind, os_path_exists, os_listdir,
    Os.exists_, Os.listdir, logger, emit.
  rewrite Hres. cbn [negb lift ret fs loaded_ontologies trace].
  rewrite Hres. cbn [lift ret].
  destruct (load_entries_store directory entries.*1
              (mkState (fs st) (loaded_ontologies st)
                 (trace st ++ [Logged INFO ("Scanning for ontologies in: "
                                            ++ OsPath.show directory)])))
    as (st' & Hrun & Hfs & Hd).
  by exists st'.
Qed.

(** X8.  The last file wins: a file that loads is found under its derived
    name after the scan, provided no file that follows it in the listing
    loads under the same derived name. *)
Theorem scan_last_wins (directory : list string) (st : State)
    (entries : list (string * Os.Node)) (before after : list string)
    (filename : string) (ontology : Ontology) :
  Os.resolve directory (Os.Dir (fs st)) = Some (Os.Dir entries) ->
  entries.*1 = (before ++ filename :: after)%list ->
  Str.endswith filename ".owl" = true ->
  Os.load (fs st) (OsPath.join directory filename) = inr ontology ->
  derived_name filename ∉ map derived_name (valid_files (fs st) directory after) ->
  exists st',
    load_ontologies_from_directory directory st = (Returned tt, st')
    /\ loaded_ontologies st' !! derived_name filename = Some ontology.
Proof.
  intros Hres Hsplit He Hl Hafter.
  destruct (load_existing_store directory st entries Hres) as (st' & Hrun & _ & Hd).
  exists st'. split; [done |]. rewrite Hd, Hsplit. by apply store_files_last.
Qed.

Lemma scan_last_wins_witness :
  exists st',
    load_ontologies_from_directory ONTOLOGY_DIR (initial_state Sample.hidden)
      = (Returned tt, st')
    /\ loaded_ontologies st' !! derived_name ".owl.owl" = Some (mkOntology "plants" ∅).
Proof.
  refine (scan_last_wins ONTOLOGY_DIR (initial_state Sample.hidden) _ [".owl"] []
            ".owl.owl" (mkOntology "plants" ∅) eq_refl eq_refl eq_refl eq_refl _).
  apply not_elem_of_nil.
Defined.

(** X9.  The scan of a directory leaves the filesystem as it was, and
    leaves every entry of the dictionary whose key is not the derived name
    of a file that loads as it was. *)
Theorem scan_keeps_other_entries (directory : list string) (st : State)
    (entries : list (string * Os.Node)) :
  Os.resolve directory (Os.Dir (fs st)) = Some (Os.Dir entries) ->
  exists st',
    load_ontologies_from_directory directory st = (Returned tt, st')
    /\ fs st' = fs st
    /\ forall n,
         n ∉ map derived_name (valid_files (fs st) directory entries.*1) ->
         loaded_ontologies st' !! n = loaded_ontologies st !! n.
Proof.
  intros Hres.
  destruct (load_existing_store directory st entries Hres) as (st' & Hrun & Hfs & Hd).
  exists st'. repeat split; try done. intros n Hn. rewrite Hd.
  by apply store_files_other.
Qed.

Lemma scan_keeps_other_entries_witness :
  exists st',
    load_ontologies_from_directory ONTOLOGY_DIR
Sample.replanted
      = (Returned tt, st')
    /\ fs st' = Sample.mixed
    /\ forall n,
         n ∉ map derived_name (valid_files Sample.mixed ONTOLOGY_DIR
                                 ["animals.owl"; "broken.owl"; "notes.txt"]) ->
         loaded_ontologies st' !! n
         = loaded_ontologies Sample.replanted !! n.
Proof.
  exact (scan_keeps_other_entries ONTOLOGY_DIR Sample.replanted _ eq_refl).
Defined.

(** X10.  When the path exists but is a regular file, the scan raises the
    [NotADirectoryError] of [os.listdir] after its first log record, with
    the dictionary and the filesystem unchanged. *)
Theorem scan_of_regular_file (directory : list string) (st : State)
    (parsed : exn + Ontology) :
  Os.resolve directory (Os.Dir (fs st)) = Some (Os.File parsed) ->
  load_ontologies_from_directory directory st
  = (Raised (OSError "NotADirectoryError"),
     mkState (fs st) (loaded_ontologies st)
       (trace st ++ [Logged INFO ("Scanning for ontologies in: "
                                  ++ OsPath.show directory)])).
Proof.
  intros Hres.
  unfold load_ontologies_from_directory, bind, os_path_exists, os_listdir,
    Os.exists_, Os.listdir, logger, emit.
  rewrite Hres. cbn [negb lift ret raise fs loaded_ontologies trace].
  by rewrite Hres.
Qed.

Lemma scan_of_regular_file_witness :
  load_ontologies_from_directory ["data"] (initial_state Sample.blocked)
  = (Raised (OSError "NotADirectoryError"),
     mkState Sample.blocked ∅ [Logged INFO "Scanning for ontologies in: data"]).
Proof.
  exact (scan_of_regular_file ["data"] (initial_state Sample.blocked) _ eq_refl).
Defined.

(** X11.  When the path does not exist and [os.makedirs] fails, its
    exception leaves [load_ontologies_from_directory] after the warning
    has been logged, with the dictionary and the filesystem unchanged. *)
Theorem makedirs_failure_propagates (directory : list string) (st : State) (e : exn) :
  Os.exists_ (fs st) directory = false ->
  Os.makedirs directory (fs st) = inl e ->
  load_ontologies_from_directory directory st
  = (Raised e,
     mkState (fs st) (loaded_ontologies st)
       (trace st ++ [Logged WARNING ("Ontology directory '" ++ OsPath.show directory
                                     ++ "' not found. Creating it.")])).
Proof.
  intros Hex Hmk.
  unfold load_ontologies_from_directory, bind, os_path_exists, os_makedirs,
    logger, emit.
  rewrite Hex. cbn [negb fs loaded_ontologies trace]. by rewrite Hmk.
Qed.

Lemma makedirs_failure_propagates_witness :
  load_ontologies_from_directory ["data"; "ontologies"] (initial_state Sample.blocked)
  = (Raised (OSError "NotADirectoryError"),
     mkState Sample.blocked ∅
       [Logged WARNING "Ontology directory 'data/ontologies' not found. Creating it."]).
Proof.
  exact (makedirs_failure_propagates ["data"; "ontologies"]
           (initial_state Sample.blocked) _ eq_refl eq_refl).
Defined.

(** X12.  For a file name that ends with [.owl], holds no separator and
    does not begin with a dot, the derived name followed by [.owl] is the
    file name again; so two such names with the same derived name are the
    same name. *)
Theorem plain_names_keep_stem (f g : string) :
  Str.endswith f ".owl" = true -> plain_name f = true ->
  Str.endswith g ".owl" = true -> plain_name g = true ->
  (derived_name f ++ ".owl") = f
  /\ (derived_name f = derived_name g -> f = g).
Proof.
  intros Hf Hpf Hg Hpg. split; [by apply derived_name_plain |].
  intros Heq. rewrite <- (derived_name_plain f Hf Hpf), <- (derived_name_plain g Hg Hpg).
  by rewrite Heq.
Qed.

Lemma plain_names_keep_stem_witness :
  (derived_name "animals.owl" ++ ".owl") = "animals.owl"
  /\ (derived_name "animals.owl" = derived_name "plants.owl"
      -> "animals.owl" = "plants.owl").
Proof.
  exact (plain_names_keep_stem "animals.owl" "plants.owl"
           eq_refl eq_refl eq_refl eq_refl).
Defined.

Lemma valid_files_app root_dir directory (l1 l2 : list string) :
  valid_files root_dir directory (l1 ++ l2)%list
  = (valid_files root_dir directory l1 ++ valid_files root_dir directory l2)%list.
Proof. unfold valid_files, owl_files. by rewrite !List.filter_app. Qed.

(** X13.  In a directory whose entries have distinct names, none
    beginning with a dot, the scan from the initial state stores one entry
    per file that loads, and each such file is found under its derived
    name. *)
Theorem plain_directory_scan (root_dir : list (string * Os.Node))
    (directory : list string) (entries : list (string * Os.Node)) :
  Os.resolve directory (Os.Dir root_dir) = Some (Os.Dir entries) ->
  NoDup entries.*1 ->
  Forall (fun filename => plain_name filename = true) entries.*1 ->
  exists st',
    load_ontologies_from_directory directory (initial_state root_dir) = (Returned tt, st')
    /\ size (loaded_ontologies st') = length (valid_files root_dir directory entries.*1)
    /\ forall filename ontology,
         filename ∈ entries.*1 -> Str.endswith filename ".owl" = true ->
         Os.load root_dir (OsPath.join directory filename) = inr ontology ->
         loaded_ontologies st' !! derived_name filename = Some ontology.
Proof.
  intros Hres Hnd Hplain.
  pose proof (derived_names_distinct root_dir directory _ Hnd Hplain) as Hdist.
  destruct (load_existing_run directory (initial_state root_dir) entries Hres)
    as (st' & Hrun & _ & Hd & _).
  destruct (load_existing_store directory (initial_state root_dir) entries Hres)
    as (st'' & Hrun' & _ & Hst).
  assert (st'' = st') as -> by congruence.
  cbn [initial_state fs loaded_ontologies] in *.
  exists st'. split; [done |]. split.
  - rewrite dom_empty_L, union_empty_l_L in Hd.
    rewrite <- size_dom, Hd, size_list_to_set by done. by rewrite length_map.
  - intros f o Hin He Hl. rewrite Hst.
    apply list_elem_of_split in Hin as (before & after & Hsplit).
    rewrite Hsplit in *. apply store_files_last; try done.
    change (f :: after) with ([f] ++ after)%list in Hdist.
    rewrite !valid_files_app in Hdist.
    assert (valid_files root_dir directory [f] = [f]) as Hf.
    { unfold valid_files, owl_files, loads. cbn [List.filter]. rewrite He.
      cbn [List.filter]. by rewrite Hl. }
    rewrite Hf, !map_app in Hdist. apply NoDup_app in Hdist as (_ & _ & Hdist).
    cbn [map app] in Hdist. by apply NoDup_cons in Hdist as [Hnot _].
Qed.

Lemma plain_directory_scan_witness :
  exists st',
    load_ontologies_from_directory ONTOLOGY_DIR (initial_state Sample.mixed)
      = (Returned tt, st')
    /\ size (loaded_ontologies st') = 1
    /\ forall filename ontology,
         filename ∈ ["animals.owl"; "broken.owl"; "notes.txt"] ->
         Str.endswith filename ".owl" = true ->
         Os.load Sample.mixed (OsPath.join ONTOLOGY_DIR filename) = inr ontology ->
         loaded_ontologies st' !! derived_name filename = Some ontology.
Proof.
  refine (plain_directory_scan Sample.mixed ONTOLOGY_DIR _ eq_refl _ _).
  - cbn. repeat (apply NoDup_cons; split; [set_solver |]). apply NoDup_nil_2.
  - cbn. repeat (apply Forall_cons; split; [reflexivity |]). apply Forall_nil_2.
Defined.

Lemma load_entry_reports (directory : list string) (f : string) (st : State) :
  exists st1 evs,
    load_entry directory f st = (Returned tt, st1)
    /\ fs st1 = fs st
    /\ trace st1 = (trace st ++ evs)%list
    /\ reports (fs st) directory [f] evs.
Proof.
  unfold load_entry, reports.
  destruct (Str.endswith f ".owl") eqn:He.
  - unfold try_except, bind, logger, emit, get_ontology_load, store_ontology.
    cbn [fs loaded_ontologies trace].
    destruct (Os.load (fs st) (OsPath.join directory f)) as [e|o] eqn:El;
      cbn [lift raise ret fs loaded_ontologies trace];
      eexists; eexists; (split; [reflexivity |]); cbn [fs trace];
      (split; [done |]); rewrite <- !app_assoc; (split; [reflexivity |]); split.
    + intros g Hg _. apply list_elem_of_singleton in Hg as ->. rewrite El.
      unfold failure_record. set_solver.
    + intros ev Hev Herr. exists f, e. repeat split; try done; [set_solver |].
      cbn [app] in Hev. apply elem_of_cons in Hev as [-> | Hev]; [done |].
      by apply list_elem_of_singleton in Hev.
    + intros g Hg _. apply list_elem_of_singleton in Hg as ->. rewrite El.
      unfold success_record, derived_name. set_solver.
    + intros ev Hev Herr. cbn [app] in Hev.
      apply elem_of_cons in Hev as [-> | Hev]; [done |].
      apply list_elem_of_singleton in Hev as ->. done.
  - exists st, []. rewrite app_nil_r. repeat split; try done.
    + intros g Hg Hge. apply list_elem_of_singleton in Hg as ->. congruence.
    + intros ev Hev. by apply elem_of_nil in Hev.
Qed.

Lemma load_entries_report (directory filenames : list string) :
  forall st, exists st' evs,
    for_each filenames (load_entry directory) st = (Returned tt, st')
    /\ fs st' = fs st
    /\ trace st' = (trace st ++ evs)%list
    /\ reports (fs st) directory filenames evs.
Proof.
  induction filenames as [|f l IH]; intros st.
  - exists st, []. rewrite app_nil_r. repeat split; try done.
    + intros g Hg. by apply elem_of_nil in Hg.
    + intros ev Hev. by apply elem_of_nil in Hev.
  - destruct (load_entry_reports directory f st)
      as (st1 & evs1 & H1 & Hfs1 & Ht1 & Hone & Honly1).
    destruct (IH st1) as (st2 & evs2 & H2 & Hfs2 & Ht2 & Hall & Honly2).
    exists st2, (evs1 ++ evs2)%list. cbn [for_each]. unfold bind at 1.
    rewrite H1, H2, Hfs1 in *. split; [done |]. split; [done |].
    split; [by rewrite Ht2, Ht1, app_assoc |]. split.
    + intros g Hg Hge. apply elem_of_cons in Hg as [-> | Hg].
      * specialize (Hone f (list_elem_of_here _ _) Hge).
        destruct (Os.load (fs st) (OsPath.join directory f)); set_solver.
      * specialize (Hall g Hg Hge).
        destruct (Os.load (fs st) (OsPath.join directory g)); set_solver.
    + intros ev Hev Herr. apply elem_of_app in Hev as [Hev | Hev].
      * destruct (Honly1 ev Hev Herr) as (g & e & Hg & Hrest).
        exists g, e. split; [| done]. apply list_elem_of_singleton in Hg as ->.
        apply list_elem_of_here.
      * destruct (Honly2 ev Hev Herr) as (g & e & Hg & Hrest).
        exists g, e. split; [| done]. by apply list_elem_of_further.
Qed.

(** X14.  The scan only appends to the trace, and what it appends holds a
    failure record (with the file name and the exception's text) for each
    [.owl] file that fails to load, a success record for each that loads,
    and no ERROR record that is not the failure record of a file that
    failed. *)
Theorem scan_reports_each_file (directory : list string) (st : State)
    (entries : list (string * Os.Node)) :
  Os.resolve directory (Os.Dir (fs st)) = Some (Os.Dir entries) ->
  exists st' evs,
    load_ontologies_from_directory directory st = (Returned tt, st')
    /\ trace st' = (trace st ++ evs)%list
    /\ reports (fs st) directory entries.*1 evs.
Proof.
  intros Hres.
  unfold load_ontologies_from_directory, bind, os_path_exists, os_listdir,
    Os.exists_, Os.listdir, logger, emit.
  rewrite Hres. cbn [negb lift ret fs loaded_ontologies trace].
  rewrite Hres. cbn [lift ret].
  destruct (load_entries_report directory entries.*1
              (mkState (fs st) (loaded_ontologies st)
                 (trace st ++ [Logged INFO ("Scanning for ontologies in: "
                                            ++ OsPath.show directory)])))
    as (st' & evs & Hrun & Hfs & Ht & Hall & Honly).
  cbn [fs trace] in *.
  exists st', ([Logged INFO ("Scanning for ontologies in: " ++ OsPath.show directory)]
               ++ evs)%list.
  split; [done |]. split; [by rewrite Ht, app_assoc |]. split.
  - intros f Hf He. specialize (Hall f Hf He).
    destruct (Os.load (fs st) (OsPath.join directory f)); set_solver.
  - intros ev Hev Herr. apply elem_of_app in Hev as [Hev | Hev].
    + apply list_elem_of_singleton in Hev as ->. done.
    + by apply Honly.
Qed.

Lemma scan_reports_each_file_witness :
  exists st' evs,
    load_ontologies_from_directory ONTOLOGY_DIR (initial_state Sample.mixed)
      = (Returned tt, st')
    /\ trace st' = ([] ++ evs)%list
    /\ reports Sample.mixed ONTOLOGY_DIR ["animals.owl"; "broken.owl"; "notes.txt"] evs.
Proof.
  exact (scan_reports_each_file ONTOLOGY_DIR (initial_state Sample.mixed) _ eq_refl).
Defined.

(** ** Starting, restarting, shutting down *)

(** What startup does once the loading phase has returned. *)
Lemma startup_after_load
    (sync_reasoner : gmap string Ontology -> exn + (Ontology -> Ontology))
    (st st1 : State) :
  (print "--- Starting up Ontology Service ---" ;;;
   load_ontologies_from_directory ONTOLOGY_DIR) st = (Returned tt, st1) ->
  exists st2,
    lifespan_startup sync_reasoner st = (Returned tt, st2)
    /\ fs st2 = fs st1
    /\ dom (loaded_ontologies st2) = dom (loaded_ontologies st1)
    /\ (size (loaded_ontologies st1) = 0 -> st2 = st1).
Proof.
  intros Hload. unfold lifespan_startup.
  unfold bind at 1. unfold bind at 1 in Hload.
  destruct (print "--- Starting up Ontology Service ---" st) as [[[]| |] stp];
    try done.
  unfold bind at 1. rewrite Hload. unfold bind at 1, get_loaded at 1.
  destruct (Nat.eqb (size (loaded_ontologies st1)) 0) eqn:Esz; cbn [negb].
  - by exists st1.
  - apply Nat.eqb_neq in Esz.
    unfold try_except, run_reasoner, bind, print, logger, emit.
    cbn [fs loaded_ontologies trace].
    destruct (sync_reasoner (loaded_ontologies st1)) as [e|update] eqn:Er;
      (eexists; split; [reflexivity |]); cbn [fs loaded_ontologies trace];
      repeat split; try done.
    by rewrite dom_fmap_L.
Qed.

(** The scan of a path that is not there and can be created. *)
Lemma load_missing_run (directory : list string) (st : State)
    (root_dir' : list (string * Os.Node)) :
  Os.exists_ (fs st) directory = false ->
  Os.makedirs directory (fs st) = inr root_dir' ->
  load_ontologies_from_directory directory st
  = (Returned tt,
     mkState root_dir' (loaded_ontologies st)
       ((trace st
         ++ [Logged WARNING ("Ontology directory '" ++ OsPath.show directory
                             ++ "' not found. Creating it.")])
        ++ [Logged INFO ("Please add your .owl ontology files to the '"
                         ++ OsPath.show directory
                         ++ "' directory and restart the application.")])).
Proof.
  intros Hex Hmk.
  unfold load_ontologies_from_directory, bind, os_path_exists, os_makedirs,
    logger, emit.
  rewrite Hex. cbn [negb fs loaded_ontologies trace]. by rewrite Hmk.
Qed.

(** X15.  When the ontology directory is missing, startup creates it,
    loads nothing and does not run the reasoner; a restart on the
    resulting filesystem finds the empty directory, leaves the filesystem
    as it is, and again loads nothing and does not run the reasoner. *)
Theorem first_start_then_restart
    (sync_reasoner : gmap string Ontology -> exn + (Ontology -> Ontology))
    (root_dir : list (string * Os.Node)) :
  Os.exists_ root_dir ONTOLOGY_DIR = false ->
  exists st1,
    lifespan_startup sync_reasoner (initial_state root_dir) = (Returned tt, st1)
    /\ fs st1 = (root_dir ++ [("ontologies", Os.Dir [])])%list
    /\ loaded_ontologies st1 = ∅
    /\ count is_reasoner_run (trace st1) = 0
    /\ exists st2,
         lifespan_startup sync_reasoner (initial_state (fs st1)) = (Returned tt, st2)
         /\ fs st2 = fs st1
         /\ loaded_ontologies st2 = ∅
         /\ count is_reasoner_run (trace st2) = 0.
Proof.
  intros Hex.
  assert (Os.entry "ontologies" root_dir = None) as Hentry.
  { unfold Os.exists_, ONTOLOGY_DIR in Hex. cbn [Os.resolve] in Hex.
    by destruct (Os.entry "ontologies" root_dir). }
  assert (Os.makedirs ONTOLOGY_DIR root_dir
          = inr (root_dir ++ [("ontologies", Os.Dir [])])%list) as Hmk.
  { unfold ONTOLOGY_DIR. cbn [Os.makedirs]. by rewrite Hentry. }
  set (root2 := (root_dir ++ [("ontologies", Os.Dir [])])%list) in *.
  assert (Os.resolve ONTOLOGY_DIR (Os.Dir root2) = Some (Os.Dir [])) as Hres.
  { unfold ONTOLOGY_DIR. cbn [Os.resolve]. unfold root2.
    by rewrite (entry_snoc _ _ _ Hentry). }
  set (banner := Printed "--- Starting up Ontology Service ---").
  (* the first start *)
  pose proof (load_missing_run ONTOLOGY_DIR (mkState root_dir ∅ [banner]) root2
                Hex Hmk) as Hfirst.
  destruct (startup_after_load sync_reasoner (initial_state root_dir) _ Hfirst)
    as (st1 & Hstart1 & _ & _ & Hsame1).
  specialize (Hsame1 (map_size_empty (M := gmap string))). subst st1.
  eexists. split; [exact Hstart1 |]. cbn [fs loaded_ontologies trace].
  split; [done |]. split; [done |]. split; [by cbn |].
  (* the restart *)
  destruct (load_existing_run ONTOLOGY_DIR (mkState root2 ∅ [banner]) [] Hres)
    as (st2 & Hrun & Hfs & Hd & _ & Hr).
  destruct (startup_after_load sync_reasoner (initial_state root2) _ Hrun)
    as (st3 & Hstart2 & _ & _ & Hsame2).
  cbn [fs loaded_ontologies trace] in *.
  assert (loaded_ontologies st2 = ∅) as Hempty.
  { apply dom_empty_iff_L. rewrite Hd. set_solver. }
  assert (st3 = st2) as -> by (apply Hsame2; by rewrite Hempty, map_size_empty).
  exists st2. by repeat split.
Qed.

Lemma first_start_then_restart_witness :
  exists st1,
    lifespan_startup Sample.no_java (initial_state Sample.bare) = (Returned tt, st1)
    /\ fs st1 = (Sample.bare ++ [("ontologies", Os.Dir [])])%list
    /\ loaded_ontologies st1 = ∅
    /\ count is_reasoner_run (trace st1) = 0
    /\ exists st2,
         lifespan_startup Sample.no_java (initial_state (fs st1)) = (Returned tt, st2)
         /\ fs st2 = fs st1
         /\ loaded_ontologies st2 = ∅
         /\ count is_reasoner_run (trace st2) = 0.
Proof.
  exact (first_start_then_restart Sample.no_java Sample.bare eq_refl).
Defined.

(** X16.  Shutdown empties the dictionary and leaves the filesystem alone;
    afterwards every superclass request is rejected with status 404 as an
    unknown ontology, with an empty list of available names, and the
    listing answers with its message. *)
Theorem shutdown_clears_store (st : State) :
  exists st',
    lifespan_shutdown st = (Returned tt, st')
    /\ loaded_ontologies st' = ∅
    /\ fs st' = fs st
    /\ (forall ontology_name class_name,
          (get_superclasses_route ontology_name class_name st').1
          = Raised (HTTPException 404 (OntologyNotFound ontology_name [])))
    /\ exists msg, (get_available_ontologies st').1 = Returned (Message msg).
Proof.
  unfold lifespan_shutdown, bind, print, emit. eexists. split; [reflexivity |].
  cbn [fs loaded_ontologies]. split; [done |]. split; [done |]. split.
  - intros n class_name. enter_route. cbn [loaded_ontologies].
    by rewrite lookup_empty.
  - unfold get_available_ontologies, bind, get_loaded. cbn [loaded_ontologies].
    rewrite map_size_empty. by eexists.
Qed.

(** X17.  When the ontology directory exists, startup returns whatever the
    reasoner does, leaves the filesystem as it was, and serves exactly the
    derived names of the files that loaded: any other name is answered
    with status 404. *)
Theorem startup_serves_loaded_names
    (sync_reasoner : gmap string Ontology -> exn + (Ontology -> Ontology))
    (root_dir : list (string * Os.Node)) (entries : list (string * Os.Node)) :
  Os.resolve ONTOLOGY_DIR (Os.Dir root_dir) = Some (Os.Dir entries) ->
  exists st2,
    lifespan_startup sync_reasoner (initial_state root_dir) = (Returned tt, st2)
    /\ fs st2 = root_dir
    /\ (forall n, is_Some (loaded_ontologies st2 !! n) <->
                  n ∈ map derived_name (valid_files root_dir ONTOLOGY_DIR entries.*1))
    /\ (forall n class_name,
          n ∉ map derived_name (valid_files root_dir ONTOLOGY_DIR entries.*1) ->
          status (get_superclasses_route n class_name st2).1 = Some 404).
Proof.
  intros Hres.
  set (st0 := mkState root_dir ∅ [Printed "--- Starting up Ontology Service ---"]).
  destruct (load_existing_run ONTOLOGY_DIR st0 entries Hres)
    as (st1 & Hrun & Hfs & Hd & _).
  destruct (startup_after_load sync_reasoner (initial_state root_dir) st1)
    as (st2 & Hstart & Hfs2 & Hd2 & _); [exact Hrun |].
  cbn [st0 fs loaded_ontologies] in *.
  rewrite dom_empty_L, union_empty_l_L in Hd.
  assert (forall n, is_Some (loaded_ontologies st2 !! n) <->
                    n ∈ map derived_name (valid_files root_dir ONTOLOGY_DIR entries.*1))
    as Hkeys.
  { intros n. by rewrite <- elem_of_dom, Hd2, Hd, elem_of_list_to_set. }
  exists st2. split; [done |]. split; [congruence |]. split; [done |].
  intros n class_name Hn. enter_route.
  destruct (loaded_ontologies st2 !! n) as [o|] eqn:El; [| done].
  exfalso. apply Hn, Hkeys. by eexists.
Qed.

Lemma startup_serves_loaded_names_witness :
  exists st2,
    lifespan_startup Sample.no_java (initial_state Sample.mixed) = (Returned tt, st2)
    /\ fs st2 = Sample.mixed
    /\ (forall n, is_Some (loaded_ontologies st2 !! n) <->
                  n ∈ map derived_name
                        (valid_files Sample.mixed ONTOLOGY_DIR
                           ["animals.owl"; "broken.owl"; "notes.txt"]))
    /\ (forall n class_name,
          n ∉ map derived_name
                (valid_files Sample.mixed ONTOLOGY_DIR
                   ["animals.owl"; "broken.owl"; "notes.txt"]) ->
          status (get_superclasses_route n class_name st2).1 = Some 404).
Proof.
  exact (startup_serves_loaded_names Sample.no_java Sample.mixed _ eq_refl).
Defined.
